(** * Tasks + Comments API (main.py): a shallow embedding and its properties

    The program is a FastAPI application over two SQLModel tables,
    [task(id, title)] and [comment(id, task_id, author, content)].
    Each endpoint is embedded in three layers, as the framework runs it:

    - request validation (pydantic schemas and [Path] constraints), which
      happens before the handler body and before any session call;
    - the handler body, a computation over the database that may raise
      [HTTPException];
    - the [response_model] conversion of the value the handler returns.

    Integers are unbounded ([Z]), as Python's [int] is. *)

From stdpp Require Import gmap strings list fin_maps.

Open Scope Z_scope.

(** ** Models (main.py, lines 18-27) *)

(** [class Task(SQLModel, table=True)]: [id] is [Optional[int]], [None] on
    an object that has not been stored yet. *)
Record Task := mkTask {
  Task_id : option Z;
  Task_title : string
}.

(** [class Comment(SQLModel, table=True)]. *)
Record Comment := mkComment {
  Comment_id : option Z;
  Comment_task_id : Z;
  Comment_author : string;
  Comment_content : string
}.

(** ** Schemas (main.py, lines 33-60) *)

Record TaskCreate := mkTaskCreate { TaskCreate_title : string }.

Record TaskRead := mkTaskRead {
  TaskRead_id : Z;
  TaskRead_title : string
}.

Record TaskUpdate := mkTaskUpdate { TaskUpdate_title : option string }.

Record CommentCreate := mkCommentCreate {
  CommentCreate_author : string;
  CommentCreate_content : string
}.

Record CommentRead := mkCommentRead {
  CommentRead_id : Z;
  CommentRead_task_id : Z;
  CommentRead_author : string;
  CommentRead_content : string
}.

Record CommentUpdate := mkCommentUpdate {
  CommentUpdate_author : option string;
  CommentUpdate_content : option string
}.

#[global] Instance TaskRead_eq_dec : EqDecision TaskRead.
Proof. solve_decision. Defined.

#[global] Instance CommentRead_eq_dec : EqDecision CommentRead.
Proof. solve_decision. Defined.

(** ** The database

    A table with an integer primary key is a finite map from the key to the
    remaining columns.  SQLite does not enforce the [foreign_key] of
    [Comment.task_id] unless asked to, and [main.py] never asks: the two
    tables are independent maps. *)

Record comment_row := mkRow {
  row_task_id : Z;
  row_author : string;
  row_content : string
}.

Record DB := mkDB {
  task_table : gmap Z string;
  comment_table : gmap Z comment_row
}.

Definition empty_db : DB := mkDB ∅ ∅.

(** The largest key of a table, [None] on an empty one. *)
Definition max_rowid {A} (m : gmap Z A) : option Z :=
  foldr (λ k acc, Some (from_option (Z.max k) k acc)) None (map_to_list m).*1.

(** The key SQLite gives to a row inserted without one: one more than the
    largest key in the table, and 1 in an empty table.  SQLite does so while
    the largest key is below 2^63 - 1; a table that holds that key, which
    takes 2^63 - 1 insertions to reach, is beyond this model. *)
Definition next_rowid {A} (m : gmap Z A) : Z :=
  match max_rowid m with
  | None => 1
  | Some k => k + 1
  end.

(** ** Failures and the handler monad *)

Inductive Failure :=
  | HTTPException (status_code : Z) (detail : string)
  | ValidationFailure      (* the framework's 422, raised before the handler runs *)
  | StoreFailure           (* an error of the persistence layer, a 500 *)
  | ResponseFailure.       (* the returned value does not fit [response_model] *)

Inductive Result (A : Type) :=
  | Ok (a : A)
  | Raise (f : Failure).
Arguments Ok {A} a.
Arguments Raise {A} f.

Inductive Table := TblTask | TblComment.

(** One entry per call made on the session object. *)
Inductive Access :=
  | session_get (t : Table) (k : Z)
  | session_exec (t : Table)
  | session_add (t : Table)
  | session_delete (t : Table)
  | session_commit
  | session_refresh (t : Table).

(** A computation of an endpoint: from the database before the request to
    its outcome, the database after it and the session calls it made. *)
Definition Handler (A : Type) : Type := DB → Result A * DB * list Access.

#[global] Instance Handler_ret : MRet Handler :=
  λ A (a : A) db, (Ok a, db, []).

Definition raise {A} (f : Failure) : Handler A := λ db, (Raise f, db, []).

(** Sequencing: a failure of the first computation ends the request with
    the database as it then is. *)
#[global] Instance Handler_bind : MBind Handler :=
  λ A B (k : A → Handler B) (m : Handler A) db,
    match m db with
    | (Ok a, db', l) => let '(r, db'', l') := k a db' in (r, db'', l ++ l')
    | (Raise f, db', l) => (Raise f, db', l)
    end.

(** Lifting of a validation step, which touches no session. *)
Definition lift {A} (r : Result A) : Handler A := λ db, (r, db, []).

(** ** Session operations

    SQLite keys are signed 64-bit integers.  A path id is a Python [int] of
    any size, and the driver refuses to bind one outside that range: the
    statement raises [OverflowError], which no handler catches. *)
Definition int64_min : Z := -9223372036854775808.
Definition int64_max : Z := 9223372036854775807.

Definition is_int64 (k : Z) : bool :=
  bool_decide (int64_min ≤ k ≤ int64_max).

(** [session.get(Task, k)]: the row with primary key [k] as an object, or
    [None] when no row has that key.  A key outside the 64-bit range is in
    no table, and looking it up is the driver's error. *)
Definition session_get_Task (k : Z) : Handler (option Task) :=
  λ db,
    match task_table db !! k with
    | Some t => (Ok (Some (mkTask (Some k) t)), db, [session_get TblTask k])
    | None =>
        if is_int64 k
        then (Ok None, db, [session_get TblTask k])
        else (Raise StoreFailure, db, [session_get TblTask k])
    end.

Definition row_to_Comment (k : Z) (r : comment_row) : Comment :=
  mkComment (Some k) (row_task_id r) (row_author r) (row_content r).

Definition Comment_to_row (c : Comment) : comment_row :=
  mkRow (Comment_task_id c) (Comment_author c) (Comment_content c).

Definition session_get_Comment (k : Z) : Handler (option Comment) :=
  λ db,
    match comment_table db !! k with
    | Some r => (Ok (Some (row_to_Comment k r)), db, [session_get TblComment k])
    | None =>
        if is_int64 k
        then (Ok None, db, [session_get TblComment k])
        else (Raise StoreFailure, db, [session_get TblComment k])
    end.

(** How a handler ends when [session.get] finds no row under [k]: with its
    404 when [k] could be bound, with the driver's error otherwise. *)
Definition not_found (detail : string) (k : Z) : Failure :=
  if is_int64 k then HTTPException 404 detail else StoreFailure.

(** [session.exec(select(Task)).all()].  The rows come in the order of the
    map, which is not SQLite's order by key: what is proved of a listing is
    proved of its members, whatever their order. *)
Definition select_Task : Handler (list Task) :=
  λ db, (Ok ((λ kt, mkTask (Some kt.1) kt.2) <$> map_to_list (task_table db)),
         db, [session_exec TblTask]).

(** [session.exec(select(Comment).where(Comment.task_id == task_id)).all()],
    in the order of the map as well. *)
Definition select_Comment_where_task_id (task_id : Z) : Handler (list Comment) :=
  λ db, (Ok ((λ kr, row_to_Comment kr.1 kr.2) <$>
               filter (λ kr, row_task_id kr.2 = task_id)
                      (map_to_list (comment_table db))),
         db, [session_exec TblComment]).

(** [session.add(o); session.commit(); session.refresh(o)].  An object
    without an id is inserted under the next key of its table and comes
    back with that key; an object that was loaded from row [k] is written
    back to row [k].  Writing back a row that no longer exists is an error
    of the store. *)
Definition add_commit_refresh_Task (o : Task) : Handler Task :=
  λ db,
    let l := [session_add TblTask; session_commit; session_refresh TblTask] in
    match Task_id o with
    | None =>
        let k := next_rowid (task_table db) in
        (Ok (mkTask (Some k) (Task_title o)),
         mkDB (<[k := Task_title o]> (task_table db)) (comment_table db), l)
    | Some k =>
        match task_table db !! k with
        | Some _ =>
            (Ok o, mkDB (<[k := Task_title o]> (task_table db)) (comment_table db), l)
        | None => (Raise StoreFailure, db, [session_add TblTask; session_commit])
        end
    end.

Definition add_commit_refresh_Comment (o : Comment) : Handler Comment :=
  λ db,
    let l := [session_add TblComment; session_commit; session_refresh TblComment] in
    match Comment_id o with
    | None =>
        let k := next_rowid (comment_table db) in
        (Ok (mkComment (Some k) (Comment_task_id o) (Comment_author o) (Comment_content o)),
         mkDB (task_table db) (<[k := Comment_to_row o]> (comment_table db)), l)
    | Some k =>
        match comment_table db !! k with
        | Some _ =>
            (Ok o, mkDB (task_table db) (<[k := Comment_to_row o]> (comment_table db)), l)
        | None => (Raise StoreFailure, db, [session_add TblComment; session_commit])
        end
    end.

(** [session.delete(o); session.commit()]. *)
Definition delete_commit_Task (o : Task) : Handler unit :=
  λ db,
    match Task_id o with
    | Some k =>
        (Ok (), mkDB (delete k (task_table db)) (comment_table db),
         [session_delete TblTask; session_commit])
    | None => (Raise StoreFailure, db, [session_delete TblTask])
    end.

Definition delete_commit_Comment (o : Comment) : Handler unit :=
  λ db,
    match Comment_id o with
    | Some k =>
        (Ok (), mkDB (task_table db) (delete k (comment_table db)),
         [session_delete TblComment; session_commit])
    | None => (Raise StoreFailure, db, [session_delete TblComment])
    end.

(** ** Python truthiness of an [Optional[str]]: [None] and [""] are false. *)
Definition truthy (o : option string) : bool :=
  match o with
  | Some s => negb (String.eqb s "")
  | None => false
  end.

(** The value a guarded assignment [if payload.f: o.f = payload.f] leaves
    in the field. *)
Definition assigned (payload : option string) (stored : string) : string :=
  if truthy payload then default ""%string payload else stored.

(** ** Task endpoints: handler bodies (main.py, lines 87-133) *)

Definition create_task (task : TaskCreate) : Handler Task :=
  let db_task := mkTask None (TaskCreate_title task) in
  add_commit_refresh_Task db_task.

Definition list_tasks : Handler (list Task) :=
  tasks ← select_Task;
  mret tasks.

Definition get_task (task_id : Z) : Handler Task :=
  task ← session_get_Task task_id;
  match task with
  | None => raise (HTTPException 404 "Task not found")
  | Some task => mret task
  end.

Definition update_task (task_id : Z) (payload : TaskUpdate) : Handler Task :=
  task ← session_get_Task task_id;
  match task with
  | None => raise (HTTPException 404 "Task not found")
  | Some task =>
      let task :=
        if truthy (TaskUpdate_title payload)
        then mkTask (Task_id task) (default "" (TaskUpdate_title payload))
        else task in
      add_commit_refresh_Task task
  end.

Definition delete_task (task_id : Z) : Handler unit :=
  task ← session_get_Task task_id;
  match task with
  | None => raise (HTTPException 404 "Task not found")
  | Some task => delete_commit_Task task
  end.

(** ** Comment endpoints: handler bodies (main.py, lines 139-195) *)

Definition list_comments (task_id : Z) : Handler (list Comment) :=
  task ← session_get_Task task_id;
  match task with
  | None => raise (HTTPException 404 "Task not found")
  | Some _ =>
      comments ← select_Comment_where_task_id task_id;
      mret comments
  end.

Definition add_comment (task_id : Z) (payload : CommentCreate) : Handler Comment :=
  task ← session_get_Task task_id;
  match task with
  | None => raise (HTTPException 404 "Task not found")
  | Some _ =>
      let comment :=
        mkComment None task_id (CommentCreate_author payload)
                  (CommentCreate_content payload) in
      add_commit_refresh_Comment comment
  end.

Definition get_comment (comment_id : Z) : Handler Comment :=
  comment ← session_get_Comment comment_id;
  match comment with
  | None => raise (HTTPException 404 "Comment not found")
  | Some comment => mret comment
  end.

Definition update_comment (comment_id : Z) (payload : CommentUpdate) : Handler Comment :=
  comment ← session_get_Comment comment_id;
  match comment with
  | None => raise (HTTPException 404 "Comment not found")
  | Some comment =>
      let comment :=
        if truthy (CommentUpdate_author payload)
        then mkComment (Comment_id comment) (Comment_task_id comment)
                       (default "" (CommentUpdate_author payload))
                       (Comment_content comment)
        else comment in
      let comment :=
        if truthy (CommentUpdate_content payload)
        then mkComment (Comment_id comment) (Comment_task_id comment)
                       (Comment_author comment)
                       (default "" (CommentUpdate_content payload))
        else comment in
      add_commit_refresh_Comment comment
  end.

Definition delete_comment (comment_id : Z) : Handler unit :=
  comment ← session_get_Comment comment_id;
  match comment with
  | None => raise (HTTPException 404 "Comment not found")
  | Some comment => delete_commit_Comment comment
  end.

(** ** Request validation

    A field of a JSON request body, as far as the string-typed schemas of
    [main.py] tell values apart: left out, [null], or a string. *)
Inductive RawField :=
  | Missing
  | Null
  | Str (s : string).

(** The body of a request to a task route and to a comment route. *)
Record TaskBody := mkTaskBody { body_title : RawField }.

Record CommentBody := mkCommentBody {
  body_author : RawField;
  body_content : RawField
}.

(** A field declared [str]: required, and no constraint on its length. *)
Definition required_str (f : RawField) : Result string :=
  match f with
  | Str s => Ok s
  | Missing | Null => Raise ValidationFailure
  end.

(** A field declared [Optional[str] = None]. *)
Definition optional_str (f : RawField) : option string :=
  match f with
  | Str s => Some s
  | Missing | Null => None
  end.

Definition validate_TaskCreate (b : TaskBody) : Result TaskCreate :=
  match required_str (body_title b) with
  | Ok s => Ok (mkTaskCreate s)
  | Raise f => Raise f
  end.

Definition validate_TaskUpdate (b : TaskBody) : Result TaskUpdate :=
  Ok (mkTaskUpdate (optional_str (body_title b))).

Definition validate_CommentCreate (b : CommentBody) : Result CommentCreate :=
  match required_str (body_author b), required_str (body_content b) with
  | Ok a, Ok c => Ok (mkCommentCreate a c)
  | _, _ => Raise ValidationFailure
  end.

Definition validate_CommentUpdate (b : CommentBody) : Result CommentUpdate :=
  Ok (mkCommentUpdate (optional_str (body_author b)) (optional_str (body_content b))).

(** [Path(..., gt=0)]. *)
Definition Path_gt (bound v : Z) : Result Z :=
  if bool_decide (bound < v) then Ok v else Raise ValidationFailure.

(** ** [response_model] conversion: [TaskRead] and [CommentRead] declare
    [id: int], so an object without an id does not fit. *)
Definition to_TaskRead (t : Task) : Result TaskRead :=
  match Task_id t with
  | Some k => Ok (mkTaskRead k (Task_title t))
  | None => Raise ResponseFailure
  end.

Definition to_CommentRead (c : Comment) : Result CommentRead :=
  match Comment_id c with
  | Some k =>
      Ok (mkCommentRead k (Comment_task_id c) (Comment_author c) (Comment_content c))
  | None => Raise ResponseFailure
  end.

Fixpoint to_list_of {A B} (f : A → Result B) (l : list A) : Result (list B) :=
  match l with
  | [] => Ok []
  | x :: l' =>
      match f x, to_list_of f l' with
      | Ok y, Ok ys => Ok (y :: ys)
      | Raise e, _ => Raise e
      | _, Raise e => Raise e
      end
  end.

(** ** The routes (main.py, the [@app] decorators)

    What a client observes on success: the status code of the decorator
    and the converted return value. *)
Inductive Content :=
  | JTask (t : TaskRead)
  | JTasks (l : list TaskRead)
  | JComment (c : CommentRead)
  | JComments (l : list CommentRead)
  | NoContent.

Definition Response : Type := Z * Content.

Definition POST_tasks (b : TaskBody) : Handler Response :=
  task ← lift (validate_TaskCreate b);
  r ← create_task task;
  out ← lift (to_TaskRead r);
  mret (201, JTask out).

Definition GET_tasks : Handler Response :=
  r ← list_tasks;
  out ← lift (to_list_of to_TaskRead r);
  mret (200, JTasks out).

Definition GET_task (task_id : Z) : Handler Response :=
  r ← get_task task_id;
  out ← lift (to_TaskRead r);
  mret (200, JTask out).

Definition PUT_task (task_id : Z) (b : TaskBody) : Handler Response :=
  payload ← lift (validate_TaskUpdate b);
  r ← update_task task_id payload;
  out ← lift (to_TaskRead r);
  mret (200, JTask out).

Definition DELETE_task (task_id : Z) : Handler Response :=
  _ ← delete_task task_id;
  mret (204, NoContent).

Definition GET_task_comments (task_id : Z) : Handler Response :=
  task_id ← lift (Path_gt 0 task_id);
  r ← list_comments task_id;
  out ← lift (to_list_of to_CommentRead r);
  mret (200, JComments out).

Definition POST_task_comments (task_id : Z) (b : CommentBody) : Handler Response :=
  payload ← lift (validate_CommentCreate b);
  r ← add_comment task_id payload;
  out ← lift (to_CommentRead r);
  mret (201, JComment out).

Definition GET_comment (comment_id : Z) : Handler Response :=
  r ← get_comment comment_id;
  out ← lift (to_CommentRead r);
  mret (200, JComment out).

Definition PUT_comment (comment_id : Z) (b : CommentBody) : Handler Response :=
  payload ← lift (validate_CommentUpdate b);
  r ← update_comment comment_id payload;
  out ← lift (to_CommentRead r);
  mret (200, JComment out).

Definition DELETE_comment (comment_id : Z) : Handler Response :=
  _ ← delete_comment comment_id;
  mret (204, NoContent).

Inductive Request :=
  | ReqCreateTask (b : TaskBody)
  | ReqListTasks
  | ReqGetTask (task_id : Z)
  | ReqUpdateTask (task_id : Z) (b : TaskBody)
  | ReqDeleteTask (task_id : Z)
  | ReqListComments (task_id : Z)
  | ReqAddComment (task_id : Z) (b : CommentBody)
  | ReqGetComment (comment_id : Z)
  | ReqUpdateComment (comment_id : Z) (b : CommentBody)
  | ReqDeleteComment (comment_id : Z).

Definition app (req : Request) : Handler Response :=
  match req with
  | ReqCreateTask b => POST_tasks b
  | ReqListTasks => GET_tasks
  | ReqGetTask k => GET_task k
  | ReqUpdateTask k b => PUT_task k b
  | ReqDeleteTask k => DELETE_task k
  | ReqListComments k => GET_task_comments k
  | ReqAddComment k b => POST_task_comments k b
  | ReqGetComment k => GET_comment k
  | ReqUpdateComment k b => PUT_comment k b
  | ReqDeleteComment k => DELETE_comment k
  end.

(** Projections of a run. *)
Definition outcome {A} (x : Result A * DB * list Access) : Result A := x.1.1.
Definition db_after {A} (x : Result A * DB * list Access) : DB := x.1.2.
Definition accesses {A} (x : Result A * DB * list Access) : list Access := x.2.

(** The databases the application can be in: it starts on an empty one
    ([create_all] on a new file) and changes it by requests only. *)
Inductive reachable : DB → Prop :=
  | reachable_empty : reachable empty_db
  | reachable_step db req : reachable db → reachable (db_after (app req db)).

(** SQLite hands out keys from 1 upwards. *)
Definition positive_ids (db : DB) : Prop :=
  (∀ k, is_Some (task_table db !! k) → 0 < k) ∧
  (∀ k, is_Some (comment_table db !! k) → 0 < k).

(** The record a stored comment is read as. *)
Definition read_row (kr : Z * comment_row) : CommentRead :=
  mkCommentRead kr.1 (row_task_id kr.2) (row_author kr.2) (row_content kr.2).

(** The record a stored task is read as. *)
Definition read_task (kt : Z * string) : TaskRead := mkTaskRead kt.1 kt.2.

(** The session calls that only read. *)
Definition is_read (a : Access) : bool :=
  match a with
  | session_get _ _ | session_exec _ => true
  | _ => false
  end.

(** What a request may do to the database: nothing, or one insertion under
    the next key, or one write to or one removal of the row the request
    names. *)
Inductive effect (db : DB) : Request → DB → Prop :=
  | effect_none req : effect db req db
  | effect_create_task b title :
      effect db (ReqCreateTask b)
        (mkDB (<[next_rowid (task_table db) := title]> (task_table db))
              (comment_table db))
  | effect_update_task k b old title :
      task_table db !! k = Some old →
      effect db (ReqUpdateTask k b)
        (mkDB (<[k := title]> (task_table db)) (comment_table db))
  | effect_delete_task k old :
      task_table db !! k = Some old →
      effect db (ReqDeleteTask k)
        (mkDB (delete k (task_table db)) (comment_table db))
  | effect_add_comment T b row :
      effect db (ReqAddComment T b)
        (mkDB (task_table db)
              (<[next_rowid (comment_table db) := row]> (comment_table db)))
  | effect_update_comment k b old author content :
      comment_table db !! k = Some old →
      effect db (ReqUpdateComment k b)
        (mkDB (task_table db)
              (<[k := mkRow (row_task_id old) author content]> (comment_table db)))
  | effect_delete_comment k old :
      comment_table db !! k = Some old →
      effect db (ReqDeleteComment k)
        (mkDB (task_table db) (delete k (comment_table db))).

(** The end-to-end scenario of the specification. *)
Definition scenario : list Request :=
  [ ReqCreateTask (mkTaskBody (Str "A"));
    ReqAddComment 1 (mkCommentBody (Str "bob") (Str "hi"));
    ReqListComments 1;
    ReqDeleteTask 1;
    ReqGetTask 1;
    ReqGetComment 1 ].

Fixpoint run (reqs : list Request) (db : DB) : list (Result Response) * DB :=
  match reqs with
  | [] => ([], db)
  | req :: reqs' =>
      let x := app req db in
      let '(rs, db') := run reqs' (db_after x) in
      (outcome x :: rs, db')
  end.

Example scenario_runs :
  (run scenario empty_db).1 =
  [ Ok (201, JTask (mkTaskRead 1 "A"));
    Ok (201, JComment (mkCommentRead 1 1 "bob" "hi"));
    Ok (200, JComments [mkCommentRead 1 1 "bob" "hi"]);
    Ok (204, NoContent);
    Raise (HTTPException 404 "Task not found");
    Ok (200, JComment (mkCommentRead 1 1 "bob" "hi")) ].
Proof. vm_compute. reflexivity. Qed.

(** * Properties *)

(** ** Key allocation *)

Section rowid.
Context {A : Type}.
Implicit Types m : gmap Z A.

Lemma foldr_max_spec (l : list Z) :
  match foldr (λ k acc, Some (from_option (Z.max k) k acc)) None l with
  | None => l = []
  | Some mx => mx ∈ l ∧ ∀ k, k ∈ l → k ≤ mx
  end.
Proof.
  induction l as [|x l IH]; simpl; [done|].
  destruct (foldr _ None l) as [mx|]; simpl.
  - destruct IH as [Hin Hle]. split.
    + destruct (Z.max_spec x mx) as [[_ ->]|[_ ->]]; set_solver.
    + intros k [->|Hk]%elem_of_cons; [lia|]. specialize (Hle _ Hk). lia.
  - subst l. split; [set_solver|]. intros k Hk.
    apply list_elem_of_singleton in Hk. lia.
Qed.

Lemma elem_of_keys m k : k ∈ (map_to_list m).*1 ↔ is_Some (m !! k).
Proof.
  rewrite list_elem_of_fmap. split.
  - intros [[k' x] [-> Hx]]. apply elem_of_map_to_list in Hx. by exists x.
  - intros [x Hx]. exists (k, x). split; [done|]. by apply elem_of_map_to_list.
Qed.

Lemma max_rowid_None m : max_rowid m = None → m = ∅.
Proof.
  unfold max_rowid. intros H.
  pose proof (foldr_max_spec (map_to_list m).*1) as Hs. rewrite H in Hs.
  apply fmap_nil_inv in Hs. by apply map_to_list_empty_iff.
Qed.

Lemma max_rowid_Some m mx :
  max_rowid m = Some mx → is_Some (m !! mx) ∧ ∀ k, is_Some (m !! k) → k ≤ mx.
Proof.
  unfold max_rowid. intros H.
  pose proof (foldr_max_spec (map_to_list m).*1) as Hs. rewrite H in Hs.
  destruct Hs as [Hin Hle]. split.
  - by apply elem_of_keys.
  - intros k Hk. by apply Hle, elem_of_keys.
Qed.

(** The key of an insertion is not in use. *)
Lemma next_rowid_fresh m : m !! next_rowid m = None.
Proof.
  unfold next_rowid. destruct (max_rowid m) as [mx|] eqn:E.
  - apply max_rowid_Some in E as [_ Hle].
    destruct (m !! (mx + 1)) eqn:El; [|done].
    specialize (Hle (mx + 1)). rewrite El in Hle.
    assert (mx + 1 ≤ mx) by (apply Hle; eauto). lia.
  - apply max_rowid_None in E. subst m. apply lookup_empty.
Qed.

(** It is positive when the keys in use are. *)
Lemma next_rowid_pos m :
  (∀ k, is_Some (m !! k) → 0 < k) → 0 < next_rowid m.
Proof.
  intros Hpos. unfold next_rowid. destruct (max_rowid m) as [mx|] eqn:E; [|lia].
  apply max_rowid_Some in E as [Hin _]. specialize (Hpos _ Hin). lia.
Qed.
End rowid.

(** ** Evaluation of the handler bodies *)

Ltac unfold_handlers :=
  unfold POST_tasks, GET_tasks, GET_task, PUT_task, DELETE_task,
    GET_task_comments, POST_task_comments, GET_comment, PUT_comment,
    DELETE_comment, create_task, list_tasks, get_task, update_task,
    delete_task, list_comments, add_comment, get_comment, update_comment,
    delete_comment, add_commit_refresh_Task, add_commit_refresh_Comment,
    delete_commit_Task, delete_commit_Comment, session_get_Task,
    session_get_Comment, select_Task, select_Comment_where_task_id,
    mbind, mret, Handler_bind, Handler_ret, lift, raise,
    outcome, db_after, accesses in *.

Lemma truthy_Some s : truthy (Some s) = true ↔ s ≠ ""%string.
Proof.
  simpl. rewrite negb_true_iff. apply String.eqb_neq.
Qed.

Lemma truthy_empty : truthy (Some ""%string) = false.
Proof. reflexivity. Qed.

Lemma assigned_nonempty s stored : s ≠ ""%string → assigned (Some s) stored = s.
Proof. intros H. unfold assigned. by apply truthy_Some in H as ->. Qed.

Lemma assigned_empty stored : assigned (Some ""%string) stored = stored.
Proof. reflexivity. Qed.

Lemma assigned_None stored : assigned None stored = stored.
Proof. reflexivity. Qed.

Lemma update_task_found db k old payload :
  task_table db !! k = Some old →
  update_task k payload db =
    (Ok (mkTask (Some k) (assigned (TaskUpdate_title payload) old)),
     mkDB (<[k := assigned (TaskUpdate_title payload) old]> (task_table db))
          (comment_table db),
     [session_get TblTask k; session_add TblTask; session_commit;
      session_refresh TblTask]).
Proof.
  intros H. unfold_handlers. unfold assigned. rewrite H. simpl.
  destruct (truthy (TaskUpdate_title payload)); simpl; by rewrite H.
Qed.

Lemma update_comment_found db k row payload :
  comment_table db !! k = Some row →
  let row' := mkRow (row_task_id row)
                    (assigned (CommentUpdate_author payload) (row_author row))
                    (assigned (CommentUpdate_content payload) (row_content row)) in
  update_comment k payload db =
    (Ok (row_to_Comment k row'),
     mkDB (task_table db) (<[k := row']> (comment_table db)),
     [session_get TblComment k; session_add TblComment; session_commit;
      session_refresh TblComment]).
Proof.
  intros H. unfold_handlers. unfold assigned. rewrite H. simpl.
  destruct (truthy (CommentUpdate_author payload)),
           (truthy (CommentUpdate_content payload)); simpl; by rewrite H.
Qed.

Lemma get_task_found db k title :
  task_table db !! k = Some title →
  GET_task k db = (Ok (200, JTask (mkTaskRead k title)), db, [session_get TblTask k]).
Proof. intros H. unfold_handlers. by rewrite H. Qed.

Lemma not_found_int64 detail k :
  is_int64 k = true → not_found detail k = HTTPException 404 detail.
Proof. unfold not_found. by intros ->. Qed.

Lemma get_task_missing db k :
  task_table db !! k = None →
  GET_task k db = (Raise (not_found "Task not found" k), db, [session_get TblTask k]).
Proof.
  intros H. unfold_handlers. unfold not_found. rewrite H. by destruct (is_int64 k).
Qed.

Lemma get_comment_found db k row :
  comment_table db !! k = Some row →
  GET_comment k db =
    (Ok (200, JComment (mkCommentRead k (row_task_id row) (row_author row) (row_content row))),
     db, [session_get TblComment k]).
Proof. intros H. unfold_handlers. by rewrite H. Qed.

(** ** Task create *)

(** C1, as the code has it: the schema [TaskCreate] declares [title: str]
    and nothing more.  A request without a title (left out or [null]) fails
    validation, with no session call and the database as it was; a title
    that is present is accepted whatever its length, the empty string
    included, and the task is inserted under the next key. *)
Theorem create_task_title_required db :
  POST_tasks (mkTaskBody Missing) db = (Raise ValidationFailure, db, []) ∧
  POST_tasks (mkTaskBody Null) db = (Raise ValidationFailure, db, []) ∧
  ∀ s, POST_tasks (mkTaskBody (Str s)) db =
         (Ok (201, JTask (mkTaskRead (next_rowid (task_table db)) s)),
          mkDB (<[next_rowid (task_table db) := s]> (task_table db)) (comment_table db),
          [session_add TblTask; session_commit; session_refresh TblTask]).
Proof. repeat split. Qed.

(** C1, as stated, fails: a create request whose title is the empty string
    is not rejected; on the empty database it answers 201 and stores the
    row [(1, "")]. *)
Lemma create_task_empty_title_accepted :
  ¬ (∀ db b, body_title b = Missing ∨ body_title b = Str "" →
             outcome (POST_tasks b db) = Raise ValidationFailure ∧
             db_after (POST_tasks b db) = db) ∧
  POST_tasks (mkTaskBody (Str "")) empty_db =
    (Ok (201, JTask (mkTaskRead 1 "")), mkDB {[1 := ""%string]} ∅,
     [session_add TblTask; session_commit; session_refresh TblTask]).
Proof.
  split; [|by vm_compute].
  intros H. destruct (H empty_db (mkTaskBody (Str ""))) as [Habs _]; [by right|].
  vm_compute in Habs. discriminate.
Qed.

(** ** Task update *)

(** C2: on an existing task, the update stores the payload's title when it
    is present and non-empty, and keeps the stored title when it is left
    out or empty; the row stays under its id, which is also the id of the
    returned record, and nothing else in the database changes. *)
Theorem update_task_changes_only_title db k old b :
  task_table db !! k = Some old →
  ∃ new,
    PUT_task k b db =
      (Ok (200, JTask (mkTaskRead k new)),
       mkDB (<[k := new]> (task_table db)) (comment_table db),
       [session_get TblTask k; session_add TblTask; session_commit;
        session_refresh TblTask]) ∧
    outcome (GET_task k (db_after (PUT_task k b db))) =
      Ok (200, JTask (mkTaskRead k new)) ∧
    (∀ k', k' ≠ k →
       task_table (db_after (PUT_task k b db)) !! k' = task_table db !! k') ∧
    (∀ s, body_title b = Str s → s ≠ ""%string → new = s) ∧
    (body_title b = Missing ∨ body_title b = Null ∨ body_title b = Str "" →
     new = old).
Proof.
  intros H. exists (assigned (optional_str (body_title b)) old).
  assert (PUT_task k b db =
      (Ok (200, JTask (mkTaskRead k (assigned (optional_str (body_title b)) old))),
       mkDB (<[k := assigned (optional_str (body_title b)) old]> (task_table db))
            (comment_table db),
       [session_get TblTask k; session_add TblTask; session_commit;
        session_refresh TblTask])) as E.
  { unfold PUT_task, validate_TaskUpdate, mbind, Handler_bind, lift.
    by rewrite (update_task_found db k old _ H). }
  rewrite E. split; [done|]. unfold db_after; simpl. repeat split.
  - erewrite get_task_found; [done|]. simpl. apply lookup_insert_eq.
  - intros k' Hk'. by apply lookup_insert_ne.
  - intros s -> Hs. by apply assigned_nonempty.
  - by intros [->|[->| ->]].
Qed.

Lemma update_task_changes_only_title_witness :
  task_table (mkDB {[1 := "A"%string]} ∅) !! 1 = Some "A"%string ∧
  outcome (PUT_task 1 (mkTaskBody (Str "B")) (mkDB {[1 := "A"%string]} ∅)) =
    Ok (200, JTask (mkTaskRead 1 "B")).
Proof.
  assert (task_table (mkDB {[1 := "A"%string]} ∅) !! 1 = Some "A"%string) as H
    by reflexivity.
  split; [exact H|].
  destruct (update_task_changes_only_title _ 1 "A" (mkTaskBody (Str "B")) H)
    as (new & E & _ & _ & Hs & _).
  rewrite E. rewrite (Hs "B"%string eq_refl); [reflexivity|discriminate].
Defined.

(** ** Comment create under a task that does not exist *)

Lemma add_comment_missing db k :
  task_table db !! k = None →
  (∀ payload,
     add_comment k payload db =
       (Raise (not_found "Task not found" k), db, [session_get TblTask k])) ∧
  (∀ a c,
     POST_task_comments k (mkCommentBody (Str a) (Str c)) db =
       (Raise (not_found "Task not found" k), db, [session_get TblTask k])).
Proof.
  intros H. unfold not_found. split.
  - intros payload. unfold_handlers. rewrite H. by destruct (is_int64 k).
  - intros a c. unfold_handlers. simpl. rewrite H. by destruct (is_int64 k).
Qed.

(** C3, as the code has it: for an id that no task has, creating a comment
    fails after the lookup alone, its only session call, and the database
    is the one before the request, with no comment row added.  The failure
    is the 404 "Task not found" when the id is within the signed 64-bit
    range, and the store's failure (the driver's [OverflowError]) when it is
    outside.  So it is for the handler on every payload and for the route
    on every body that passes validation. *)
Theorem add_comment_task_not_found db k :
  task_table db !! k = None →
  (∀ payload,
     outcome (add_comment k payload db) =
       Raise (if is_int64 k then HTTPException 404 "Task not found"
              else StoreFailure) ∧
     db_after (add_comment k payload db) = db ∧
     accesses (add_comment k payload db) = [session_get TblTask k]) ∧
  (∀ a c,
     POST_task_comments k (mkCommentBody (Str a) (Str c)) db =
       (Raise (if is_int64 k then HTTPException 404 "Task not found"
               else StoreFailure), db, [session_get TblTask k])).
Proof.
  intros H. destruct (add_comment_missing db k H) as [Hh Hr]. split; [|exact Hr].
  intros payload. by rewrite Hh.
Qed.

Lemma add_comment_task_not_found_witness :
  task_table empty_db !! 7 = None ∧
  POST_task_comments 7 (mkCommentBody (Str "bob") (Str "hi")) empty_db =
    (Raise (HTTPException 404 "Task not found"), empty_db, [session_get TblTask 7]).
Proof.
  assert (task_table empty_db !! 7 = None) as H by reflexivity.
  split; [exact H|].
  apply (add_comment_task_not_found empty_db 7 H).
Defined.

(** C3, as stated, fails: 2^63 is the id of no task, and creating a comment
    under it does not answer "not found" but ends in the store's failure. *)
Lemma add_comment_out_of_range_fails :
  ¬ (∀ db k payload,
       task_table db !! k = None →
       outcome (add_comment k payload db) =
         Raise (HTTPException 404 "Task not found")) ∧
  task_table empty_db !! 9223372036854775808 = None ∧
  POST_task_comments 9223372036854775808 (mkCommentBody (Str "bob") (Str "hi"))
      empty_db =
    (Raise StoreFailure, empty_db, [session_get TblTask 9223372036854775808]).
Proof.
  split; [|split; reflexivity].
  intros H.
  specialize (H empty_db 9223372036854775808 (mkCommentCreate "bob" "hi") eq_refl).
  discriminate H.
Qed.

(** ** Task delete *)

Lemma delete_task_found db k title :
  task_table db !! k = Some title →
  DELETE_task k db =
    (Ok (204, NoContent), mkDB (delete k (task_table db)) (comment_table db),
     [session_get TblTask k; session_delete TblTask; session_commit]).
Proof. intros H. unfold_handlers. by rewrite H. Qed.

Lemma delete_comment_found db k row :
  comment_table db !! k = Some row →
  DELETE_comment k db =
    (Ok (204, NoContent), mkDB (task_table db) (delete k (comment_table db)),
     [session_get TblComment k; session_delete TblComment; session_commit]).
Proof. intros H. unfold_handlers. by rewrite H. Qed.

(** C4: deleting an existing task [T] succeeds with 204; fetching [T]
    afterwards fails with the 404 "Task not found"; the comment table is
    untouched, so every comment stored before the delete, those of [T]
    included, is still returned by its own id.  [T] is an id a table can
    hold, a signed 64-bit integer. *)
Theorem delete_task_keeps_comments db T title :
  is_int64 T = true →
  task_table db !! T = Some title →
  outcome (DELETE_task T db) = Ok (204, NoContent) ∧
  outcome (GET_task T (db_after (DELETE_task T db))) =
    Raise (HTTPException 404 "Task not found") ∧
  comment_table (db_after (DELETE_task T db)) = comment_table db ∧
  ∀ cid row,
    comment_table db !! cid = Some row →
    outcome (GET_comment cid (db_after (DELETE_task T db))) =
      Ok (200, JComment (mkCommentRead cid (row_task_id row) (row_author row)
                                       (row_content row))).
Proof.
  intros HT H. rewrite (delete_task_found db T title H).
  unfold outcome, db_after; simpl.
  repeat split.
  - rewrite get_task_missing by (simpl; apply lookup_delete_eq).
    simpl. by rewrite not_found_int64.
  - intros cid row Hc. by erewrite get_comment_found.
Qed.

Lemma delete_task_keeps_comments_witness :
  let db := mkDB {[1 := "A"%string]} {[1 := mkRow 1 "bob" "hi"]} in
  is_int64 1 = true ∧
  task_table db !! 1 = Some "A"%string ∧
  outcome (GET_task 1 (db_after (DELETE_task 1 db))) =
    Raise (HTTPException 404 "Task not found") ∧
  outcome (GET_comment 1 (db_after (DELETE_task 1 db))) =
    Ok (200, JComment (mkCommentRead 1 1 "bob" "hi")).
Proof.
  intros db.
  assert (is_int64 1 = true) as H1 by reflexivity.
  assert (task_table db !! 1 = Some "A"%string) as H by reflexivity.
  split; [exact H1|]. split; [exact H|].
  destruct (delete_task_keeps_comments db 1 "A" H1 H) as (_ & Hget & _ & Hc).
  split; [exact Hget|]. apply (Hc 1 (mkRow 1 "bob" "hi")). reflexivity.
Defined.

(** ** Create, then get *)

(** C7: creating a task with title [t] answers 201 with a record that
    carries [t] and the generated id, an id no stored task had; fetching
    that id afterwards returns the same record. *)
Theorem create_task_then_get db t :
  ∃ k,
    task_table db !! k = None ∧
    outcome (POST_tasks (mkTaskBody (Str t)) db) =
      Ok (201, JTask (mkTaskRead k t)) ∧
    outcome (GET_task k (db_after (POST_tasks (mkTaskBody (Str t)) db))) =
      Ok (200, JTask (mkTaskRead k t)).
Proof.
  exists (next_rowid (task_table db)). split; [apply next_rowid_fresh|].
  split; [reflexivity|].
  erewrite get_task_found; [reflexivity|].
  unfold_handlers. simpl. apply lookup_insert_eq.
Qed.

(** ** The databases the application reaches *)

Lemma insert_keeps_pos {A} (m : gmap Z A) k x :
  (∀ j, is_Some (m !! j) → 0 < j) → 0 < k →
  ∀ j, is_Some (<[k := x]> m !! j) → 0 < j.
Proof.
  intros Hm Hk j. destruct (decide (k = j)) as [<-|Hne]; [done|].
  rewrite lookup_insert_ne; auto.
Qed.

Lemma delete_keeps_pos {A} (m : gmap Z A) k :
  (∀ j, is_Some (m !! j) → 0 < j) →
  ∀ j, is_Some (delete k m !! j) → 0 < j.
Proof.
  intros Hm j. destruct (decide (k = j)) as [<-|Hne].
  - rewrite lookup_delete_eq. by intros [? ?].
  - rewrite lookup_delete_ne; auto.
Qed.

Ltac case_lookups :=
  repeat match goal with
    | |- context [task_table ?db !! ?k] =>
        let E := fresh "E" in destruct (task_table db !! k) eqn:E; simpl
    | |- context [comment_table ?db !! ?k] =>
        let E := fresh "E" in destruct (comment_table db !! k) eqn:E; simpl
    | |- context [is_int64 ?k] => destruct (is_int64 k); simpl
    | |- context [truthy ?o] => destruct (truthy o); simpl
    | |- context [bool_decide ?P] => destruct (bool_decide P); simpl
    | |- context [required_str ?f] => destruct f; simpl
    | |- context [to_list_of ?f ?l] => destruct (to_list_of f l); simpl
    end.

(** Every request keeps the keys positive. *)
Lemma app_positive_ids req db :
  positive_ids db → positive_ids (db_after (app req db)).
Proof.
  intros [Ht Hc].
  destruct req as [[f]| |k|k [f]|k|k|k [fa fc]|k|k [fa fc]|k];
    unfold app, positive_ids; unfold_handlers;
    unfold validate_TaskCreate, validate_TaskUpdate, validate_CommentCreate,
      validate_CommentUpdate, Path_gt; simpl;
    case_lookups; try done; simpl;
    try rewrite E; try rewrite E0; simpl;
    (split; [|]);
    eauto using insert_keeps_pos, delete_keeps_pos, next_rowid_pos.
Qed.

Lemma reachable_positive_ids db : reachable db → positive_ids db.
Proof.
  induction 1 as [|db req _ IH].
  - split; intros k; simpl; rewrite lookup_empty; by intros [? ?].
  - by apply app_positive_ids.
Qed.

(** ** Comments of a task *)

Lemma to_list_of_rows (l : list (Z * comment_row)) :
  to_list_of to_CommentRead ((λ kr, row_to_Comment kr.1 kr.2) <$> l) =
    Ok (read_row <$> l).
Proof.
  induction l as [|kr l IH]; [done|].
  rewrite !fmap_cons. cbn [to_list_of to_CommentRead row_to_Comment Comment_id].
  by rewrite IH.
Qed.

#[local] Instance read_row_inj : Inj (=) (=) read_row.
Proof.
  intros [k1 [t1 a1 c1]] [k2 [t2 a2 c2]]. unfold read_row; simpl. congruence.
Qed.

Lemma list_comments_found db T title :
  0 < T → task_table db !! T = Some title →
  GET_task_comments T db =
    (Ok (200, JComments (read_row <$>
           filter (λ kr, row_task_id kr.2 = T) (map_to_list (comment_table db)))),
     db, [session_get TblTask T; session_exec TblComment]).
Proof.
  intros HT H. unfold GET_task_comments, Path_gt, mbind, Handler_bind, lift.
  rewrite bool_decide_eq_true_2 by done.
  unfold list_comments, session_get_Task, select_Comment_where_task_id,
    mbind, Handler_bind, mret, Handler_ret.
  rewrite H. simpl. by rewrite to_list_of_rows.
Qed.

(** C5: on a database the application reaches, listing the comments of an
    existing task [T] answers 200 with a list, free of repetitions, that
    holds exactly the stored comments whose [task_id] is [T]; the
    database is left as it was. *)
Theorem list_comments_exact db T :
  reachable db → is_Some (task_table db !! T) →
  ∃ l,
    outcome (GET_task_comments T db) = Ok (200, JComments l) ∧
    db_after (GET_task_comments T db) = db ∧
    NoDup l ∧
    ∀ c, c ∈ l ↔
         comment_table db !! CommentRead_id c =
           Some (mkRow (CommentRead_task_id c) (CommentRead_author c)
                       (CommentRead_content c)) ∧
         CommentRead_task_id c = T.
Proof.
  intros Hr [title HT].
  assert (0 < T) as Hpos.
  { destruct (reachable_positive_ids db Hr) as [Hp _]. apply Hp. eauto. }
  rewrite (list_comments_found db T title Hpos HT).
  eexists. split; [reflexivity|]. split; [reflexivity|]. split.
  - apply (NoDup_fmap_2 read_row), NoDup_filter, NoDup_map_to_list.
  - intros c. rewrite list_elem_of_fmap. split.
    + intros [[k row] [-> [Hp Hin]%list_elem_of_filter]].
      apply elem_of_map_to_list in Hin. simpl in *. split; [|done].
      by destruct row.
    + intros [Hl Ht]. exists (CommentRead_id c, mkRow (CommentRead_task_id c)
        (CommentRead_author c) (CommentRead_content c)). split.
      * by destruct c.
      * apply list_elem_of_filter. split; [done|]. by apply elem_of_map_to_list.
Qed.

Lemma list_comments_exact_witness :
  let db := db_after (app (ReqAddComment 1 (mkCommentBody (Str "bob") (Str "hi")))
              (db_after (app (ReqCreateTask (mkTaskBody (Str "A"))) empty_db))) in
  reachable db ∧ is_Some (task_table db !! 1) ∧
  ∃ l, outcome (GET_task_comments 1 db) = Ok (200, JComments l) ∧
       mkCommentRead 1 1 "bob" "hi" ∈ l.
Proof.
  intros db.
  assert (reachable db) as Hr by (do 2 apply reachable_step; apply reachable_empty).
  assert (is_Some (task_table db !! 1)) as HT by (exists "A"%string; reflexivity).
  split; [exact Hr|]. split; [exact HT|].
  destruct (list_comments_exact db 1 Hr HT) as (l & E & _ & _ & Hl).
  exists l. split; [exact E|]. apply Hl. split; reflexivity.
Defined.

(** ** Comment update *)

(** C6: on an existing comment, the update replaces [author] by the
    payload's when that is present and non-empty, and likewise [content];
    a field left out, [null] or empty keeps its stored value; the row stays
    under its id with its [task_id], both also in the returned record, and
    nothing else in the database changes. *)
Theorem update_comment_changes_given_fields db k row b :
  comment_table db !! k = Some row →
  ∃ author content,
    PUT_comment k b db =
      (Ok (200, JComment (mkCommentRead k (row_task_id row) author content)),
       mkDB (task_table db)
            (<[k := mkRow (row_task_id row) author content]> (comment_table db)),
       [session_get TblComment k; session_add TblComment; session_commit;
        session_refresh TblComment]) ∧
    outcome (GET_comment k (db_after (PUT_comment k b db))) =
      Ok (200, JComment (mkCommentRead k (row_task_id row) author content)) ∧
    (∀ k', k' ≠ k →
       comment_table (db_after (PUT_comment k b db)) !! k' = comment_table db !! k') ∧
    (∀ s, body_author b = Str s → s ≠ ""%string → author = s) ∧
    (body_author b = Missing ∨ body_author b = Null ∨ body_author b = Str "" →
     author = row_author row) ∧
    (∀ s, body_content b = Str s → s ≠ ""%string → content = s) ∧
    (body_content b = Missing ∨ body_content b = Null ∨ body_content b = Str "" →
     content = row_content row).
Proof.
  intros H.
  exists (assigned (optional_str (body_author b)) (row_author row)),
         (assigned (optional_str (body_content b)) (row_content row)).
  assert (PUT_comment k b db =
      (Ok (200, JComment (mkCommentRead k (row_task_id row)
             (assigned (optional_str (body_author b)) (row_author row))
             (assigned (optional_str (body_content b)) (row_content row)))),
       mkDB (task_table db)
            (<[k := mkRow (row_task_id row)
                 (assigned (optional_str (body_author b)) (row_author row))
                 (assigned (optional_str (body_content b)) (row_content row))]>
               (comment_table db)),
       [session_get TblComment k; session_add TblComment; session_commit;
        session_refresh TblComment])) as E.
  { unfold PUT_comment, validate_CommentUpdate, mbind, Handler_bind, lift.
    by rewrite (update_comment_found db k row _ H). }
  rewrite E. split; [done|]. unfold db_after; simpl. repeat split.
  - erewrite get_comment_found by (simpl; apply lookup_insert_eq). done.
  - intros k' Hk'. by apply lookup_insert_ne.
  - intros s -> Hs. by apply assigned_nonempty.
  - by intros [->|[->| ->]].
  - intros s -> Hs. by apply assigned_nonempty.
  - by intros [->|[->| ->]].
Qed.

Lemma update_comment_changes_given_fields_witness :
  let db := mkDB {[1 := "A"%string]} {[1 := mkRow 1 "bob" "hi"]} in
  comment_table db !! 1 = Some (mkRow 1 "bob" "hi") ∧
  outcome (PUT_comment 1 (mkCommentBody (Str "eve") (Str "")) db) =
    Ok (200, JComment (mkCommentRead 1 1 "eve" "hi")).
Proof.
  intros db.
  assert (comment_table db !! 1 = Some (mkRow 1 "bob" "hi")) as H by reflexivity.
  split; [exact H|].
  destruct (update_comment_changes_given_fields db 1 _
              (mkCommentBody (Str "eve") (Str "")) H)
    as (author & content & E & _ & _ & Ha & _ & _ & Hc).
  rewrite E. unfold outcome; simpl.
  rewrite (Ha "eve"%string eq_refl) by discriminate.
  rewrite Hc by (right; right; reflexivity). reflexivity.
Defined.

(** ** Failures with "not found" *)

Ltac eval_app :=
  unfold app; unfold_handlers;
  unfold validate_TaskCreate, validate_TaskUpdate, validate_CommentCreate,
    validate_CommentUpdate, Path_gt; simpl.

(** C9, as the code has it: a request that fails with a 404 leaves the
    database as it was.  For an id that is not stored, the task update, the
    task delete, the comment update and the comment delete each fail right
    after the lookup, the only session call they make, with the database
    as it was: with their 404 when the id is within the signed 64-bit
    range, and with the store's failure (the driver's [OverflowError]) when
    it is outside. *)
Theorem not_found_changes_nothing db :
  (∀ req d,
     outcome (app req db) = Raise (HTTPException 404 d) →
     db_after (app req db) = db) ∧
  (∀ k, task_table db !! k = None →
     (∀ b, PUT_task k b db =
             (Raise (if is_int64 k then HTTPException 404 "Task not found"
                     else StoreFailure), db, [session_get TblTask k])) ∧
     DELETE_task k db =
       (Raise (if is_int64 k then HTTPException 404 "Task not found"
               else StoreFailure), db, [session_get TblTask k])) ∧
  (∀ k, comment_table db !! k = None →
     (∀ b, PUT_comment k b db =
             (Raise (if is_int64 k then HTTPException 404 "Comment not found"
                     else StoreFailure), db, [session_get TblComment k])) ∧
     DELETE_comment k db =
       (Raise (if is_int64 k then HTTPException 404 "Comment not found"
               else StoreFailure), db, [session_get TblComment k])).
Proof.
  split; [|split].
  - intros req d.
    destruct req as [[f]| |k|k [f]|k|k|k [fa fc]|k|k [fa fc]|k];
      eval_app; case_lookups; try done;
      try rewrite E; try rewrite E0; simpl; try done;
      case_lookups; done.
  - intros k H. split; [intros b|]; eval_app; rewrite H; by destruct (is_int64 k).
  - intros k H. split; [intros b|]; eval_app; rewrite H; by destruct (is_int64 k).
Qed.

Lemma not_found_changes_nothing_witness :
  task_table empty_db !! 3 = None ∧
  PUT_task 3 (mkTaskBody (Str "B")) empty_db =
    (Raise (HTTPException 404 "Task not found"), empty_db, [session_get TblTask 3]) ∧
  db_after (app (ReqDeleteComment 3) empty_db) = empty_db.
Proof.
  assert (task_table empty_db !! 3 = None) as H by reflexivity.
  destruct (not_found_changes_nothing empty_db) as (Hany & Htask & _).
  split; [exact H|]. split.
  - apply (Htask 3 H).
  - apply (Hany (ReqDeleteComment 3) "Comment not found"%string). reflexivity.
Defined.

(** C9, as stated, fails: the id -2^63 - 1 is absent from the comment
    table, and deleting it does not raise the 404 but ends in the store's
    failure. *)
Lemma delete_comment_out_of_range_fails :
  ¬ (∀ db k,
       comment_table db !! k = None →
       outcome (DELETE_comment k db) =
         Raise (HTTPException 404 "Comment not found")) ∧
  comment_table empty_db !! (-9223372036854775809) = None ∧
  DELETE_comment (-9223372036854775809) empty_db =
    (Raise StoreFailure, empty_db, [session_get TblComment (-9223372036854775809)]).
Proof.
  split; [|split; reflexivity].
  intros H. specialize (H empty_db (-9223372036854775809) eq_refl).
  discriminate H.
Qed.

(** ** Validation of the task id on the comment routes *)

(** C10, as the code has it: on a database the application reaches, a task
    id that is not positive is rejected by the listing route at validation,
    with no session call, while the creating route has no check on the id:
    it looks the id up, finds no task under it, and fails after that one
    session call, with the 404 "Task not found" when the id is within the
    signed 64-bit range and with the store's failure (the driver's
    [OverflowError]) when it is below it; never with a validation
    failure. *)
Theorem comment_routes_id_check_asymmetric db k :
  reachable db → k ≤ 0 →
  GET_task_comments k db = (Raise ValidationFailure, db, []) ∧
  (∀ payload,
     add_comment k payload db =
       (Raise (if is_int64 k then HTTPException 404 "Task not found"
               else StoreFailure), db, [session_get TblTask k])) ∧
  (∀ a c,
     POST_task_comments k (mkCommentBody (Str a) (Str c)) db =
       (Raise (if is_int64 k then HTTPException 404 "Task not found"
               else StoreFailure), db, [session_get TblTask k])).
Proof.
  intros Hr Hk.
  assert (task_table db !! k = None) as Hnone.
  { destruct (task_table db !! k) eqn:E; [|done].
    destruct (reachable_positive_ids db Hr) as [Hp _].
    assert (0 < k) by (apply Hp; eauto). lia. }
  split.
  - unfold GET_task_comments, Path_gt, mbind, Handler_bind, lift.
    by rewrite bool_decide_eq_false_2 by lia.
  - apply (add_comment_missing db k Hnone).
Qed.

Lemma comment_routes_id_check_asymmetric_witness :
  reachable empty_db ∧ -5 ≤ 0 ∧
  GET_task_comments (-5) empty_db = (Raise ValidationFailure, empty_db, []) ∧
  POST_task_comments (-5) (mkCommentBody (Str "bob") (Str "hi")) empty_db =
    (Raise (HTTPException 404 "Task not found"), empty_db, [session_get TblTask (-5)]).
Proof.
  assert (-5 ≤ 0) as Hk by lia.
  destruct (comment_routes_id_check_asymmetric empty_db (-5) reachable_empty Hk)
    as (Hl & _ & Hc).
  split; [apply reachable_empty|]. split; [exact Hk|]. split; [exact Hl|]. apply Hc.
Defined.

(** C10, as stated, fails: -2^63 - 1 is not positive, and on the empty
    database the create route answers it with the store's failure, not with
    "not found". *)
Lemma add_comment_below_range_fails :
  ¬ (∀ db k a c,
       reachable db → k ≤ 0 →
       outcome (POST_task_comments k (mkCommentBody (Str a) (Str c)) db) =
         Raise (HTTPException 404 "Task not found")) ∧
  POST_task_comments (-9223372036854775809) (mkCommentBody (Str "bob") (Str "hi"))
      empty_db =
    (Raise StoreFailure, empty_db, [session_get TblTask (-9223372036854775809)]).
Proof.
  split; [|reflexivity].
  intros H.
  specialize (H empty_db (-9223372036854775809) "bob"%string "hi"%string
                reachable_empty).
  assert (-9223372036854775809 ≤ 0) as Hk by lia.
  specialize (H Hk). discriminate H.
Qed.

(** ** Ids of stored entities *)

Lemma app_effect req db : effect db req (db_after (app req db)).
Proof.
  destruct req as [[f]| |k|k [f]|k|k|k [fa fc]|k|k [fa fc]|k];
    eval_app; case_lookups; simpl;
    try rewrite E; try rewrite E0; simpl; case_lookups;
    try apply effect_none.
  all: try (by eapply effect_create_task).
  all: try (by eapply effect_update_task).
  all: try (by eapply effect_delete_task).
  all: try (by eapply (effect_add_comment db k _ (mkRow k _ _))).
  all: try (by eapply effect_delete_comment).
  all: simplify_eq; unfold Comment_to_row, row_to_Comment; simpl;
    eapply effect_update_comment; eassumption.
Qed.

Lemma put_task_returns_path_id db k b old :
  task_table db !! k = Some old →
  ∃ title, outcome (PUT_task k b db) = Ok (200, JTask (mkTaskRead k title)).
Proof.
  intros H. eexists. unfold PUT_task, validate_TaskUpdate, mbind, Handler_bind, lift.
  by rewrite (update_task_found db k old _ H).
Qed.

Lemma put_comment_returns_path_id db k b old :
  comment_table db !! k = Some old →
  ∃ author content,
    outcome (PUT_comment k b db) =
      Ok (200, JComment (mkCommentRead k (row_task_id old) author content)).
Proof.
  intros H. do 2 eexists.
  unfold PUT_comment, validate_CommentUpdate, mbind, Handler_bind, lift.
  by rewrite (update_comment_found db k old _ H).
Qed.

Ltac case_key k' k :=
  destruct (decide (k' = k)) as [<-|?];
  [rewrite ?lookup_insert_eq, ?lookup_delete_eq
  |rewrite ?lookup_insert_ne, ?lookup_delete_ne by done].

Lemma effect_keeps_ids db req db' :
  effect db req db' →
  (∀ k, is_Some (task_table db !! k) →
        is_Some (task_table db' !! k) ∨ req = ReqDeleteTask k) ∧
  (∀ k, is_Some (comment_table db !! k) →
        is_Some (comment_table db' !! k) ∨
        req = ReqDeleteComment k) ∧
  (∀ k, is_Some (task_table db' !! k) →
        is_Some (task_table db !! k) ∨
        (∃ b, req = ReqCreateTask b) ∧ k = next_rowid (task_table db)) ∧
  (∀ k, is_Some (comment_table db' !! k) →
        is_Some (comment_table db !! k) ∨
        (∃ T b, req = ReqAddComment T b) ∧ k = next_rowid (comment_table db)) ∧
  (∀ k title, task_table db !! k = Some title →
        task_table db' !! k = Some title ∨
        (∃ b, req = ReqUpdateTask k b) ∨ req = ReqDeleteTask k) ∧
  (∀ k row, comment_table db !! k = Some row →
        comment_table db' !! k = Some row ∨
        (∃ b, req = ReqUpdateComment k b) ∨ req = ReqDeleteComment k) ∧
  (∀ k row row', comment_table db !! k = Some row →
        comment_table db' !! k = Some row' →
        row_task_id row' = row_task_id row).
Proof.
  intros He. repeat split.
  - intros k Hk.
    destruct He as [req|b t|k' b old t Hold|k' old Hold|T b row
                   |k' b old a c Hold|k' old Hold]; simpl; auto.
    + case_key (next_rowid (task_table db)) k; eauto.
    + case_key k' k; eauto.
    + case_key k' k; eauto.
  - intros k Hk.
    destruct He as [req|b t|k' b old t Hold|k' old Hold|T b row
                   |k' b old a c Hold|k' old Hold]; simpl; auto.
    + case_key (next_rowid (comment_table db)) k; eauto.
    + case_key k' k; eauto.
    + case_key k' k; eauto.
  - intros k.
    destruct He as [req|b t|k' b old t Hold|k' old Hold|T b row
                   |k' b old a c Hold|k' old Hold]; simpl; auto.
    + case_key (next_rowid (task_table db)) k; eauto.
    + case_key k' k; eauto.
    + case_key k' k; eauto.
  - intros k.
    destruct He as [req|b t|k' b old t Hold|k' old Hold|T b row
                   |k' b old a c Hold|k' old Hold]; simpl; auto.
    + case_key (next_rowid (comment_table db)) k; eauto.
    + case_key k' k; eauto.
    + case_key k' k; eauto.
  - intros k title Hk.
    destruct He as [req|b t|k' b old t Hold|k' old Hold|T b row
                   |k' b old a c Hold|k' old Hold]; simpl; auto.
    + left. rewrite lookup_insert_ne; [done|].
      intros <-. by rewrite next_rowid_fresh in Hk.
    + case_key k' k; eauto.
    + case_key k' k; eauto.
  - intros k row Hk.
    destruct He as [req|b t|k' b old t Hold|k' old Hold|T b row0
                   |k' b old a c Hold|k' old Hold]; simpl; auto.
    + left. rewrite lookup_insert_ne; [done|].
      intros <-. by rewrite next_rowid_fresh in Hk.
    + case_key k' k; eauto.
    + case_key k' k; eauto.
  - intros k row row' Hk.
    destruct He as [req|b t|k' b old t Hold|k' old Hold|T b row0
                   |k' b old a c Hold|k' old Hold]; simpl;
      try (intros; congruence).
    + rewrite lookup_insert_ne; [congruence|].
      intros <-. by rewrite next_rowid_fresh in Hk.
    + case_key k' k; [|congruence]. intros [= <-]. simpl. congruence.
    + case_key k' k; [done|congruence].
Qed.

(** C8: ids are immutable.  Whatever the request, a stored task or comment
    is found under the same id afterwards unless the request is the delete
    of that id; the only id that appears is the fresh one of a create; a
    row other than the one an update or delete names is left as it was,
    and a comment keeps its [task_id] through every request.  The task
    update and the comment update answer with the id of the request
    path. *)
Theorem ids_are_immutable req db :
  (∀ k, is_Some (task_table db !! k) →
        is_Some (task_table (db_after (app req db)) !! k) ∨ req = ReqDeleteTask k) ∧
  (∀ k, is_Some (comment_table db !! k) →
        is_Some (comment_table (db_after (app req db)) !! k) ∨
        req = ReqDeleteComment k) ∧
  (∀ k, is_Some (task_table (db_after (app req db)) !! k) →
        is_Some (task_table db !! k) ∨
        (∃ b, req = ReqCreateTask b) ∧ k = next_rowid (task_table db)) ∧
  (∀ k, is_Some (comment_table (db_after (app req db)) !! k) →
        is_Some (comment_table db !! k) ∨
        (∃ T b, req = ReqAddComment T b) ∧ k = next_rowid (comment_table db)) ∧
  (∀ k title, task_table db !! k = Some title →
        task_table (db_after (app req db)) !! k = Some title ∨
        (∃ b, req = ReqUpdateTask k b) ∨ req = ReqDeleteTask k) ∧
  (∀ k row, comment_table db !! k = Some row →
        comment_table (db_after (app req db)) !! k = Some row ∨
        (∃ b, req = ReqUpdateComment k b) ∨ req = ReqDeleteComment k) ∧
  (∀ k row row', comment_table db !! k = Some row →
        comment_table (db_after (app req db)) !! k = Some row' →
        row_task_id row' = row_task_id row) ∧
  (∀ k b, is_Some (task_table db !! k) →
        ∃ title, outcome (PUT_task k b db) = Ok (200, JTask (mkTaskRead k title))) ∧
  (∀ k b, is_Some (comment_table db !! k) →
        ∃ T author content,
          outcome (PUT_comment k b db) =
            Ok (200, JComment (mkCommentRead k T author content))).
Proof.
  pose proof (effect_keeps_ids db req _ (app_effect req db))
    as (H1 & H2 & H3 & H4 & H5 & H6 & H7).
  repeat split; try assumption.
  - intros k b [old Hk]. by apply put_task_returns_path_id with old.
  - intros k b [old Hk].
    destruct (put_comment_returns_path_id db k b old Hk) as (a & c & E). eauto.
Qed.

Lemma ids_are_immutable_witness :
  let db := mkDB {[1 := "A"%string]} {[1 := mkRow 1 "bob" "hi"]} in
  is_Some (task_table db !! 1) ∧
  is_Some (task_table (db_after (app (ReqUpdateTask 1 (mkTaskBody (Str "B"))) db)) !! 1) ∧
  ∃ title, outcome (PUT_task 1 (mkTaskBody (Str "B")) db) =
             Ok (200, JTask (mkTaskRead 1 title)).
Proof.
  intros db.
  assert (is_Some (task_table db !! 1)) as H by (exists "A"%string; reflexivity).
  destruct (ids_are_immutable (ReqUpdateTask 1 (mkTaskBody (Str "B"))) db)
    as (Hkeep & _ & _ & _ & _ & _ & _ & Hput & _).
  split; [exact H|]. split.
  - destruct (Hkeep 1 H) as [Hs|Hd]; [exact Hs|discriminate Hd].
  - apply (Hput 1 (mkTaskBody (Str "B")) H).
Defined.

(** * Further properties of the routes *)

(** ** Listing the tasks (main.py, lines 96-100) *)

Lemma to_list_of_tasks (l : list (Z * string)) :
  to_list_of to_TaskRead ((λ kt, mkTask (Some kt.1) kt.2) <$> l) =
    Ok (read_task <$> l).
Proof.
  induction l as [|kt l IH]; [done|].
  rewrite !fmap_cons. cbn [to_list_of to_TaskRead Task_id].
  by rewrite IH.
Qed.

#[local] Instance read_task_inj : Inj (=) (=) read_task.
Proof. intros [k1 t1] [k2 t2]. unfold read_task; simpl. congruence. Qed.

Lemma list_tasks_eval db :
  GET_tasks db =
    (Ok (200, JTasks (read_task <$> map_to_list (task_table db))), db,
     [session_exec TblTask]).
Proof.
  unfold GET_tasks, list_tasks, select_Task, mbind, Handler_bind, mret,
    Handler_ret, lift.
  by rewrite to_list_of_tasks.
Qed.

(** X1: the task listing always succeeds with 200, with one session call
    and the database left as it was; the list has no repetitions, as many
    entries as the table has rows, and holds exactly the stored tasks. *)
Theorem list_tasks_exact db :
  ∃ l,
    GET_tasks db = (Ok (200, JTasks l), db, [session_exec TblTask]) ∧
    NoDup l ∧
    length l = size (task_table db) ∧
    ∀ r, r ∈ l ↔ task_table db !! TaskRead_id r = Some (TaskRead_title r).
Proof.
  exists (read_task <$> map_to_list (task_table db)).
  split; [apply list_tasks_eval|]. split; [|split].
  - apply (NoDup_fmap_2 read_task), NoDup_map_to_list.
  - by rewrite length_fmap, length_map_to_list.
  - intros r. rewrite list_elem_of_fmap. split.
    + intros [[k t] [-> Hin]]. by apply elem_of_map_to_list in Hin.
    + intros H. exists (TaskRead_id r, TaskRead_title r). split.
      * by destruct r.
      * by apply elem_of_map_to_list.
Qed.

(** X2: fetching and listing agree: [GET /tasks/{k}] answers with a record
    exactly when that record, with id [k], is in the listing. *)
Theorem get_task_iff_listed db k r :
  outcome (GET_task k db) = Ok (200, JTask r) ↔
  TaskRead_id r = k ∧
  ∃ l, outcome (GET_tasks db) = Ok (200, JTasks l) ∧ r ∈ l.
Proof.
  rewrite list_tasks_eval. unfold outcome at 2; simpl. split.
  - intros H. destruct (task_table db !! k) as [t|] eqn:Ek.
    + rewrite (get_task_found db k t Ek) in H. unfold outcome in H; simpl in H.
      injection H as <-. split; [done|]. eexists. split; [done|].
      apply list_elem_of_fmap. exists (k, t). split; [done|].
      by apply elem_of_map_to_list.
    + rewrite (get_task_missing db k Ek) in H. discriminate.
  - intros [<- (l & [= <-] & Hin)].
    apply list_elem_of_fmap in Hin as [[k t] [-> Hin]].
    apply elem_of_map_to_list in Hin. unfold read_task; simpl.
    by rewrite (get_task_found db k t Hin).
Qed.

Lemma get_task_iff_listed_witness :
  outcome (GET_task 1 (mkDB {[1 := "A"%string]} ∅)) =
    Ok (200, JTask (mkTaskRead 1 "A")) ∧
  ∃ l, outcome (GET_tasks (mkDB {[1 := "A"%string]} ∅)) = Ok (200, JTasks l) ∧
       mkTaskRead 1 "A" ∈ l.
Proof.
  assert (outcome (GET_task 1 (mkDB {[1 := "A"%string]} ∅)) =
            Ok (200, JTask (mkTaskRead 1 "A"))) as H by reflexivity.
  split; [exact H|].
  apply (proj1 (get_task_iff_listed _ 1 (mkTaskRead 1 "A")) H).
Defined.

(** ** Creating a comment (main.py, lines 150-160) *)

Lemma get_comment_missing db k :
  comment_table db !! k = None →
  GET_comment k db =
    (Raise (not_found "Comment not found" k), db, [session_get TblComment k]).
Proof.
  intros H. unfold_handlers. unfold not_found. rewrite H. by destruct (is_int64 k).
Qed.

Lemma add_comment_found db T title a c :
  task_table db !! T = Some title →
  POST_task_comments T (mkCommentBody (Str a) (Str c)) db =
    (Ok (201, JComment (mkCommentRead (next_rowid (comment_table db)) T a c)),
     mkDB (task_table db)
          (<[next_rowid (comment_table db) := mkRow T a c]> (comment_table db)),
     [session_get TblTask T; session_add TblComment; session_commit;
      session_refresh TblComment]).
Proof. intros H. unfold_handlers. simpl. by rewrite H. Qed.

(** X3: under an existing task [T], creating a comment answers 201 with
    the author and content of the body, [task_id] set to the path id and an
    id that no stored comment had; the task table is untouched, and fetching
    the new id afterwards returns the same record. *)
Theorem add_comment_then_get db T title a c :
  task_table db !! T = Some title →
  ∃ k,
    comment_table db !! k = None ∧
    outcome (POST_task_comments T (mkCommentBody (Str a) (Str c)) db) =
      Ok (201, JComment (mkCommentRead k T a c)) ∧
    task_table (db_after (POST_task_comments T (mkCommentBody (Str a) (Str c)) db)) =
      task_table db ∧
    outcome (GET_comment k
               (db_after (POST_task_comments T (mkCommentBody (Str a) (Str c)) db))) =
      Ok (200, JComment (mkCommentRead k T a c)).
Proof.
  intros H. exists (next_rowid (comment_table db)).
  rewrite (add_comment_found db T title a c H). unfold outcome, db_after; simpl.
  split; [apply next_rowid_fresh|]. do 2 (split; [done|]).
  by erewrite get_comment_found by (simpl; apply lookup_insert_eq).
Qed.

Lemma add_comment_then_get_witness :
  let db := mkDB {[1 := "A"%string]} ∅ in
  task_table db !! 1 = Some "A"%string ∧
  ∃ k, outcome (POST_task_comments 1 (mkCommentBody (Str "bob") (Str "hi")) db) =
         Ok (201, JComment (mkCommentRead k 1 "bob" "hi")).
Proof.
  intros db.
  assert (task_table db !! 1 = Some "A"%string) as H by reflexivity.
  split; [exact H|].
  destruct (add_comment_then_get db 1 "A" "bob" "hi" H) as (k & _ & E & _).
  exists k. exact E.
Defined.

(** X4: creating a comment succeeds exactly when the body carries both an
    author and a content and the task of the path exists: a comment is never
    stored under an id that no task has at that moment. *)
Theorem add_comment_succeeds_iff db T fa fc :
  (∃ r, outcome (POST_task_comments T (mkCommentBody fa fc) db) = Ok r) ↔
  (∃ a c, fa = Str a ∧ fc = Str c) ∧ is_Some (task_table db !! T).
Proof.
  split.
  - intros [r H].
    destruct fa as [| |a], fc as [| |c]; try discriminate H.
    split; [eauto|]. destruct (task_table db !! T) eqn:E; [eauto|].
    destruct (add_comment_missing db T E) as [_ Hr]. rewrite Hr in H. discriminate.
  - intros [(a & c & -> & ->) [title H]].
    rewrite (add_comment_found db T title a c H). eauto.
Qed.

Lemma add_comment_succeeds_iff_witness :
  let db := mkDB {[1 := "A"%string]} ∅ in
  ∃ r, outcome (POST_task_comments 1 (mkCommentBody (Str "bob") (Str "hi")) db) = Ok r.
Proof.
  intros db.
  apply (proj2 (add_comment_succeeds_iff db 1 (Str "bob") (Str "hi"))).
  split; [by exists "bob"%string, "hi"%string|]. by exists "A"%string.
Defined.

(** X5: a body that lacks the author or the content is rejected at
    validation whatever the task id, before the task is looked up: no
    session call is made, also for an id that no task has. *)
Theorem add_comment_validates_before_lookup db T fa fc :
  (∀ s, fa ≠ Str s) ∨ (∀ s, fc ≠ Str s) →
  POST_task_comments T (mkCommentBody fa fc) db = (Raise ValidationFailure, db, []).
Proof.
  intros H. destruct fa as [| |a], fc as [| |c]; try reflexivity.
  destruct H as [H|H]; [by destruct (H a)|by destruct (H c)].
Qed.

Lemma add_comment_validates_before_lookup_witness :
  POST_task_comments 9 (mkCommentBody (Str "bob") Missing) empty_db =
    (Raise ValidationFailure, empty_db, []).
Proof.
  apply add_comment_validates_before_lookup. right. intros s. discriminate.
Defined.

(** X6: after a comment is created under an existing task [T] with a
    positive id, the listing of [T] is the listing from before with the new
    comment added, up to order. *)
Theorem add_comment_then_list db T title a c :
  0 < T → task_table db !! T = Some title →
  ∃ k l l',
    outcome (POST_task_comments T (mkCommentBody (Str a) (Str c)) db) =
      Ok (201, JComment (mkCommentRead k T a c)) ∧
    outcome (GET_task_comments T db) = Ok (200, JComments l) ∧
    outcome (GET_task_comments T
               (db_after (POST_task_comments T (mkCommentBody (Str a) (Str c)) db))) =
      Ok (200, JComments l') ∧
    l' ≡ₚ mkCommentRead k T a c :: l.
Proof.
  intros HT H. eexists _, _, _.
  rewrite (add_comment_found db T title a c H). unfold outcome, db_after; simpl.
  rewrite (list_comments_found db T title HT H).
  rewrite (list_comments_found _ T title HT) by done. simpl.
  do 3 (split; [reflexivity|]).
  rewrite map_to_list_insert by apply next_rowid_fresh.
  by rewrite filter_cons_True.
Qed.

Lemma add_comment_then_list_witness :
  let db := mkDB {[1 := "A"%string]} ∅ in
  0 < 1 ∧ task_table db !! 1 = Some "A"%string ∧
  ∃ k l',
    outcome (GET_task_comments 1
               (db_after (POST_task_comments 1 (mkCommentBody (Str "bob") (Str "hi")) db))) =
      Ok (200, JComments l') ∧
    mkCommentRead k 1 "bob" "hi" ∈ l'.
Proof.
  intros db.
  assert (0 < 1) as H1 by lia.
  assert (task_table db !! 1 = Some "A"%string) as H by reflexivity.
  split; [exact H1|]. split; [exact H|].
  destruct (add_comment_then_list db 1 "A" "bob" "hi" H1 H)
    as (k & l & l' & _ & _ & E & Hp).
  exists k, l'. split; [exact E|]. rewrite Hp. apply list_elem_of_here.
Defined.

(** ** Deleting a comment (main.py, lines 188-195) *)

(** X7: deleting an existing comment answers 204 with no content; fetching
    its id afterwards fails with the 404 "Comment not found"; the task
    table is untouched and every other comment is fetched as before.  The
    id is one a table can hold, a signed 64-bit integer. *)
Theorem delete_comment_then_get db k row :
  is_int64 k = true →
  comment_table db !! k = Some row →
  outcome (DELETE_comment k db) = Ok (204, NoContent) ∧
  outcome (GET_comment k (db_after (DELETE_comment k db))) =
    Raise (HTTPException 404 "Comment not found") ∧
  task_table (db_after (DELETE_comment k db)) = task_table db ∧
  ∀ k', k' ≠ k →
    outcome (GET_comment k' (db_after (DELETE_comment k db))) =
      outcome (GET_comment k' db).
Proof.
  intros Hk H. rewrite (delete_comment_found db k row H). unfold db_after; simpl.
  split; [done|]. split; [|split; [done|]].
  - rewrite get_comment_missing by (simpl; apply lookup_delete_eq).
    unfold outcome; simpl. by rewrite not_found_int64.
  - intros k' Hk'. unfold_handlers. simpl. rewrite lookup_delete_ne by congruence.
    destruct (comment_table db !! k'); [done|]. by destruct (is_int64 k').
Qed.

Lemma delete_comment_then_get_witness :
  let db := mkDB {[1 := "A"%string]} {[1 := mkRow 1 "bob" "hi"]} in
  is_int64 1 = true ∧
  comment_table db !! 1 = Some (mkRow 1 "bob" "hi") ∧
  outcome (GET_comment 1 (db_after (DELETE_comment 1 db))) =
    Raise (HTTPException 404 "Comment not found").
Proof.
  intros db.
  assert (is_int64 1 = true) as H1 by reflexivity.
  assert (comment_table db !! 1 = Some (mkRow 1 "bob" "hi")) as H by reflexivity.
  split; [exact H1|]. split; [exact H|].
  apply (delete_comment_then_get db 1 _ H1 H).
Defined.

Lemma delete_task_missing db k :
  task_table db !! k = None →
  DELETE_task k db =
    (Raise (not_found "Task not found" k), db, [session_get TblTask k]).
Proof.
  intros H. unfold_handlers. unfold not_found. rewrite H. by destruct (is_int64 k).
Qed.

Lemma delete_comment_missing db k :
  comment_table db !! k = None →
  DELETE_comment k db =
    (Raise (not_found "Comment not found" k), db, [session_get TblComment k]).
Proof.
  intros H. unfold_handlers. unfold not_found. rewrite H. by destruct (is_int64 k).
Qed.

(** X8: a second delete of the same id fails, for a task and for a
    comment, whether or not the first delete found the row: with the 404
    of its kind when the id is within the signed 64-bit range, with the
    store's failure when it is outside. *)
Theorem delete_twice_not_found db k :
  outcome (DELETE_task k (db_after (DELETE_task k db))) =
    Raise (if is_int64 k then HTTPException 404 "Task not found" else StoreFailure) ∧
  outcome (DELETE_comment k (db_after (DELETE_comment k db))) =
    Raise (if is_int64 k then HTTPException 404 "Comment not found"
           else StoreFailure).
Proof.
  split.
  - destruct (task_table db !! k) as [t|] eqn:E.
    + rewrite (delete_task_found db k t E). unfold db_after; simpl.
      by rewrite delete_task_missing by (simpl; apply lookup_delete_eq).
    + rewrite (delete_task_missing db k E). unfold db_after; simpl.
      by rewrite (delete_task_missing db k E).
  - destruct (comment_table db !! k) as [r|] eqn:E.
    + rewrite (delete_comment_found db k r E). unfold db_after; simpl.
      by rewrite delete_comment_missing by (simpl; apply lookup_delete_eq).
    + rewrite (delete_comment_missing db k E). unfold db_after; simpl.
      by rewrite (delete_comment_missing db k E).
Qed.

(** ** Comments of a deleted task *)

(** X9: once a task [T] is deleted, its comment routes answer the 404
    "Task not found", the listing as well as the create, although the
    comments of [T] are all still in the store.  [T] is an id a table can
    hold, a signed 64-bit integer. *)
Theorem deleted_task_hides_comments db T title :
  is_int64 T = true →
  0 < T → task_table db !! T = Some title →
  outcome (GET_task_comments T (db_after (DELETE_task T db))) =
    Raise (HTTPException 404 "Task not found") ∧
  (∀ a c,
     outcome (POST_task_comments T (mkCommentBody (Str a) (Str c))
                (db_after (DELETE_task T db))) =
       Raise (HTTPException 404 "Task not found")) ∧
  ∀ k row,
    comment_table db !! k = Some row → row_task_id row = T →
    comment_table (db_after (DELETE_task T db)) !! k = Some row.
Proof.
  intros Hi HT H. rewrite (delete_task_found db T title H). unfold db_after; simpl.
  split; [|split].
  - unfold GET_task_comments, Path_gt, mbind, Handler_bind, lift.
    rewrite bool_decide_eq_true_2 by done.
    unfold_handlers. simpl. by rewrite lookup_delete_eq, Hi.
  - intros a c.
    destruct (add_comment_missing
                (mkDB (delete T (task_table db)) (comment_table db)) T) as [_ Hr].
    { simpl. apply lookup_delete_eq. }
    by rewrite Hr, not_found_int64.
  - done.
Qed.

Lemma deleted_task_hides_comments_witness :
  let db := mkDB {[1 := "A"%string]} {[1 := mkRow 1 "bob" "hi"]} in
  is_int64 1 = true ∧ 0 < 1 ∧ task_table db !! 1 = Some "A"%string ∧
  outcome (GET_task_comments 1 (db_after (DELETE_task 1 db))) =
    Raise (HTTPException 404 "Task not found") ∧
  comment_table (db_after (DELETE_task 1 db)) !! 1 = Some (mkRow 1 "bob" "hi").
Proof.
  intros db.
  assert (is_int64 1 = true) as Hi by reflexivity.
  assert (0 < 1) as H1 by lia.
  assert (task_table db !! 1 = Some "A"%string) as H by reflexivity.
  split; [exact Hi|]. split; [exact H1|]. split; [exact H|].
  destruct (deleted_task_hides_comments db 1 "A" Hi H1 H) as (Hl & _ & Hc).
  split; [exact Hl|]. apply Hc; reflexivity.
Defined.

(** ** Updates applied twice *)

Lemma assigned_idem p stored : assigned p (assigned p stored) = assigned p stored.
Proof. unfold assigned. by destruct (truthy p). Qed.

Lemma put_task_found db k old b :
  task_table db !! k = Some old →
  PUT_task k b db =
    (Ok (200, JTask (mkTaskRead k (assigned (optional_str (body_title b)) old))),
     mkDB (<[k := assigned (optional_str (body_title b)) old]> (task_table db))
          (comment_table db),
     [session_get TblTask k; session_add TblTask; session_commit;
      session_refresh TblTask]).
Proof.
  intros H. unfold PUT_task, validate_TaskUpdate, mbind, Handler_bind, lift.
  by rewrite (update_task_found db k old _ H).
Qed.

Lemma put_comment_found db k row b :
  comment_table db !! k = Some row →
  PUT_comment k b db =
    (Ok (200, JComment (mkCommentRead k (row_task_id row)
           (assigned (optional_str (body_author b)) (row_author row))
           (assigned (optional_str (body_content b)) (row_content row)))),
     mkDB (task_table db)
          (<[k := mkRow (row_task_id row)
               (assigned (optional_str (body_author b)) (row_author row))
               (assigned (optional_str (body_content b)) (row_content row))]>
             (comment_table db)),
     [session_get TblComment k; session_add TblComment; session_commit;
      session_refresh TblComment]).
Proof.
  intros H. unfold PUT_comment, validate_CommentUpdate, mbind, Handler_bind, lift.
  by rewrite (update_comment_found db k row _ H).
Qed.

(** X10: the task update is idempotent: sending the same body to the same
    id a second time gives the same answer as the first time and leaves the
    database as the first update left it. *)
Theorem update_task_idempotent db k b :
  outcome (PUT_task k b (db_after (PUT_task k b db))) = outcome (PUT_task k b db) ∧
  db_after (PUT_task k b (db_after (PUT_task k b db))) = db_after (PUT_task k b db).
Proof.
  destruct (task_table db !! k) as [old|] eqn:E.
  - rewrite (put_task_found db k old b E). unfold db_after at 2 4; simpl.
    erewrite put_task_found by (simpl; apply lookup_insert_eq).
    unfold outcome, db_after; simpl. by rewrite assigned_idem, insert_insert_eq.
  - assert (PUT_task k b db =
              (Raise (not_found "Task not found" k), db,
               [session_get TblTask k])) as Emiss.
    { unfold_handlers. unfold not_found. simpl. rewrite E.
      by destruct (is_int64 k). }
    rewrite Emiss.
    change (db_after (Raise (not_found "Task not found" k), db,
                      [session_get TblTask k])) with db.
    by rewrite Emiss.
Qed.

(** X11: the comment update is idempotent in the same sense. *)
Theorem update_comment_idempotent db k b :
  outcome (PUT_comment k b (db_after (PUT_comment k b db))) =
    outcome (PUT_comment k b db) ∧
  db_after (PUT_comment k b (db_after (PUT_comment k b db))) =
    db_after (PUT_comment k b db).
Proof.
  destruct (comment_table db !! k) as [row|] eqn:E.
  - rewrite (put_comment_found db k row b E). unfold db_after at 2 4; simpl.
    erewrite put_comment_found by (simpl; apply lookup_insert_eq).
    unfold outcome, db_after; simpl. by rewrite !assigned_idem, insert_insert_eq.
  - assert (PUT_comment k b db =
              (Raise (not_found "Comment not found" k), db,
               [session_get TblComment k])) as Emiss.
    { unfold_handlers. unfold not_found. simpl. rewrite E.
      by destruct (is_int64 k). }
    rewrite Emiss.
    change (db_after (Raise (not_found "Comment not found" k), db,
                      [session_get TblComment k])) with db.
    by rewrite Emiss.
Qed.

(** X12: an update whose body leaves every field out, [null] or empty
    changes nothing: the database after it is the database before it, for
    a task and for a comment, stored or not. *)
Theorem empty_update_changes_nothing db k ft fa fc :
  truthy (optional_str ft) = false →
  truthy (optional_str fa) = false →
  truthy (optional_str fc) = false →
  db_after (PUT_task k (mkTaskBody ft) db) = db ∧
  db_after (PUT_comment k (mkCommentBody fa fc) db) = db.
Proof.
  intros Ht Ha Hc. split.
  - destruct (task_table db !! k) as [old|] eqn:E.
    + rewrite (put_task_found db k old _ E). unfold db_after, assigned; simpl.
      rewrite Ht, insert_id by done. by destruct db.
    + unfold_handlers. simpl. rewrite E. by destruct (is_int64 k).
  - destruct (comment_table db !! k) as [row|] eqn:E.
    + rewrite (put_comment_found db k row _ E). unfold db_after, assigned; simpl.
      rewrite Ha, Hc, insert_id by (by destruct row). by destruct db.
    + unfold_handlers. simpl. rewrite E. by destruct (is_int64 k).
Qed.

Lemma empty_update_changes_nothing_witness :
  let db := mkDB {[1 := "A"%string]} {[1 := mkRow 1 "bob" "hi"]} in
  db_after (PUT_task 1 (mkTaskBody (Str "")) db) = db ∧
  db_after (PUT_comment 1 (mkCommentBody Missing Null) db) = db.
Proof.
  intros db.
  apply (empty_update_changes_nothing db 1 (Str "") Missing Null); reflexivity.
Defined.

(** ** What requests never do *)

(** X13: the four reading routes never change the database, whatever they
    answer, and every session call they make is a [get] or an [exec]:
    nothing is added, deleted or committed. *)
Theorem reads_change_nothing db k :
  (db_after (GET_tasks db) = db ∧ forallb is_read (accesses (GET_tasks db)) = true) ∧
  (db_after (GET_task k db) = db ∧ forallb is_read (accesses (GET_task k db)) = true) ∧
  (db_after (GET_task_comments k db) = db ∧
   forallb is_read (accesses (GET_task_comments k db)) = true) ∧
  (db_after (GET_comment k db) = db ∧
   forallb is_read (accesses (GET_comment k db)) = true).
Proof.
  split; [|split; [|split]].
  - by rewrite list_tasks_eval.
  - destruct (task_table db !! k) as [t|] eqn:E.
    + by rewrite (get_task_found db k t E).
    + by rewrite (get_task_missing db k E).
  - unfold GET_task_comments, Path_gt, mbind, Handler_bind, lift.
    destruct (bool_decide (0 < k)); [|done].
    unfold_handlers. simpl.
    destruct (task_table db !! k); simpl; [|by destruct (is_int64 k)].
    by rewrite to_list_of_rows.
  - destruct (comment_table db !! k) as [r|] eqn:E.
    + by rewrite (get_comment_found db k r E).
    + by rewrite (get_comment_missing db k E).
Qed.

(** X14: a request that fails, with whatever failure, leaves the database
    as it was: no route writes and then fails. *)
Theorem failure_changes_nothing req db f :
  outcome (app req db) = Raise f → db_after (app req db) = db.
Proof.
  destruct req as [[ft]| |k|k [ft]|k|k|k [fa fc]|k|k [fa fc]|k];
    eval_app; case_lookups; try done;
    try rewrite E; try rewrite E0; simpl; try done;
    case_lookups; done.
Qed.

Lemma failure_changes_nothing_witness :
  let db := mkDB {[1 := "A"%string]} ∅ in
  outcome (app (ReqListComments 0) db) = Raise ValidationFailure ∧
  db_after (app (ReqListComments 0) db) = db.
Proof.
  intros db.
  assert (outcome (app (ReqListComments 0) db) = Raise ValidationFailure) as H
    by reflexivity.
  split; [exact H|]. apply (failure_changes_nothing _ db _ H).
Defined.

(** X15: a request never ends in a failure of the [response_model]
    conversion, the value a handler returns always carrying an id, nor in
    an [HTTPException] other than the two 404s: its failure is the
    validation failure, one of the two 404s, or a failure of the store. *)
Theorem failure_kinds req db f :
  outcome (app req db) = Raise f →
  f = ValidationFailure ∨
  f = HTTPException 404 "Task not found" ∨
  f = HTTPException 404 "Comment not found" ∨
  f = StoreFailure.
Proof.
  destruct req as [[ft]| |k|k [ft]|k|k|k [fa fc]|k|k [fa fc]|k].
  2: { unfold app. by rewrite list_tasks_eval. }
  5: { unfold app, GET_task_comments, Path_gt, mbind, Handler_bind, lift.
       destruct (bool_decide (0 < k)); [|intros [= <-]; auto].
       unfold_handlers. simpl. destruct (task_table db !! k); simpl.
       - by rewrite to_list_of_rows.
       - destruct (is_int64 k); intros [= <-]; auto. }
  all: eval_app; case_lookups; try done;
    try rewrite E; try rewrite E0; simpl; try done;
    case_lookups; try done;
    intros [= <-]; auto.
Qed.

Lemma failure_kinds_witness :
  outcome (app (ReqGetTask 9223372036854775808) empty_db) = Raise StoreFailure ∧
  (StoreFailure = ValidationFailure ∨
   StoreFailure = HTTPException 404 "Task not found" ∨
   StoreFailure = HTTPException 404 "Comment not found" ∨
   StoreFailure = StoreFailure).
Proof.
  assert (outcome (app (ReqGetTask 9223372036854775808) empty_db) =
            Raise StoreFailure) as H by reflexivity.
  split; [exact H|]. apply (failure_kinds _ empty_db _ H).
Defined.

(** ** Generated ids *)

(** X16: two creates in a row answer with different ids, and the second
    create leaves the first task in place: both are fetched afterwards with
    the titles they were created with. *)
Theorem create_task_twice db t1 t2 :
  ∃ k1 k2,
    outcome (POST_tasks (mkTaskBody (Str t1)) db) = Ok (201, JTask (mkTaskRead k1 t1)) ∧
    outcome (POST_tasks (mkTaskBody (Str t2))
               (db_after (POST_tasks (mkTaskBody (Str t1)) db))) =
      Ok (201, JTask (mkTaskRead k2 t2)) ∧
    k1 ≠ k2 ∧
    outcome (GET_task k1
               (db_after (POST_tasks (mkTaskBody (Str t2))
                  (db_after (POST_tasks (mkTaskBody (Str t1)) db))))) =
      Ok (200, JTask (mkTaskRead k1 t1)) ∧
    outcome (GET_task k2
               (db_after (POST_tasks (mkTaskBody (Str t2))
                  (db_after (POST_tasks (mkTaskBody (Str t1)) db))))) =
      Ok (200, JTask (mkTaskRead k2 t2)).
Proof.
  set (k1 := next_rowid (task_table db)).
  set (k2 := next_rowid (<[k1 := t1]> (task_table db))).
  assert (k1 ≠ k2) as Hne.
  { intros Heq. pose proof (next_rowid_fresh (<[k1 := t1]> (task_table db))) as Hf.
    fold k2 in Hf. rewrite <- Heq, lookup_insert_eq in Hf. discriminate. }
  exists k1, k2. split; [reflexivity|]. split; [reflexivity|]. split; [exact Hne|].
  split.
  - erewrite get_task_found; [reflexivity|].
    unfold_handlers. simpl. fold k1. fold k2.
    rewrite lookup_insert_ne by congruence. apply lookup_insert_eq.
  - erewrite get_task_found; [reflexivity|].
    unfold_handlers. simpl. fold k1. fold k2. apply lookup_insert_eq.
Qed.

(** ** Status codes and answered ids *)

(** X17: a request that succeeds answers with the status of its route,
    201 for the two creates, 204 and no content for the two deletes, 200
    otherwise, and with a body of the route's shape; a fetch or an update
    answers with the id of its path, and a created comment carries the task
    id of its path. *)
Theorem success_status_and_shape req db st c :
  outcome (app req db) = Ok (st, c) →
  match req with
  | ReqCreateTask _ => st = 201 ∧ ∃ r, c = JTask r
  | ReqListTasks => st = 200 ∧ ∃ l, c = JTasks l
  | ReqGetTask k | ReqUpdateTask k _ =>
      st = 200 ∧ ∃ r, c = JTask r ∧ TaskRead_id r = k
  | ReqDeleteTask _ | ReqDeleteComment _ => st = 204 ∧ c = NoContent
  | ReqListComments _ => st = 200 ∧ ∃ l, c = JComments l
  | ReqAddComment T _ => st = 201 ∧ ∃ r, c = JComment r ∧ CommentRead_task_id r = T
  | ReqGetComment k | ReqUpdateComment k _ =>
      st = 200 ∧ ∃ r, c = JComment r ∧ CommentRead_id r = k
  end.
Proof.
  destruct req as [[ft]| |k|k [ft]|k|k|k [fa fc]|k|k [fa fc]|k].
  2: { unfold app. rewrite list_tasks_eval. intros [= <- <-]. eauto. }
  5: { unfold app, GET_task_comments, Path_gt, mbind, Handler_bind, lift.
       destruct (bool_decide (0 < k)); [|done].
       unfold_handlers. simpl.
       destruct (task_table db !! k); simpl; [|by destruct (is_int64 k)].
       rewrite to_list_of_rows. intros [= <- <-]. eauto. }
  all: eval_app; case_lookups; try done;
    try rewrite E; try rewrite E0; simpl; try done;
    case_lookups; try done;
    intros [= <- <-]; eauto.
Qed.

Lemma success_status_and_shape_witness :
  let db := mkDB {[1 := "A"%string]} ∅ in
  outcome (app (ReqGetTask 1) db) = Ok (200, JTask (mkTaskRead 1 "A")) ∧
  200 = 200 ∧ ∃ r, JTask (mkTaskRead 1 "A") = JTask r ∧ TaskRead_id r = 1.
Proof.
  intros db.
  assert (outcome (app (ReqGetTask 1) db) = Ok (200, JTask (mkTaskRead 1 "A"))) as H
    by reflexivity.
  split; [exact H|]. apply (success_status_and_shape (ReqGetTask 1) db _ _ H).
Defined.

(** ** Task ids of stored comments *)

Lemma app_keeps_comment_task_ids req db :
  positive_ids db →
  (∀ k row, comment_table db !! k = Some row → 0 < row_task_id row) →
  ∀ k row,
    comment_table (db_after (app req db)) !! k = Some row → 0 < row_task_id row.
Proof.
  intros [Ht _] Hc.
  destruct req as [[ft]| |j|j [ft]|j|j|j [fa fc]|j|j [fa fc]|j];
    eval_app; case_lookups; try done;
    try rewrite E; try rewrite E0; simpl; try done;
    case_lookups; try done;
    intros k row; unfold Comment_to_row, row_to_Comment; simpl;
    rewrite ?lookup_insert_Some, ?lookup_delete_Some;
    try (intros [[_ <-]|[_ Hk]]; simpl; eauto);
    try (intros [_ Hk]; eauto).
  all: simplify_eq; eauto.
Qed.

(** X18: on every database the application reaches, each stored comment
    has a positive [task_id]: comments are created under existing tasks
    only, whose ids are positive, and no update moves a comment to another
    task. *)
Theorem reachable_comment_task_ids_positive db :
  reachable db →
  ∀ k row, comment_table db !! k = Some row → 0 < row_task_id row.
Proof.
  induction 1 as [|db req Hr IH].
  - intros k row. simpl. by rewrite lookup_empty.
  - apply app_keeps_comment_task_ids; [by apply reachable_positive_ids|exact IH].
Qed.

Lemma reachable_comment_task_ids_positive_witness :
  let db := db_after (app (ReqAddComment 1 (mkCommentBody (Str "bob") (Str "hi")))
              (db_after (app (ReqCreateTask (mkTaskBody (Str "A"))) empty_db))) in
  reachable db ∧ comment_table db !! 1 = Some (mkRow 1 "bob" "hi") ∧
  0 < row_task_id (mkRow 1 "bob" "hi").
Proof.
  intros db.
  assert (reachable db) as Hr by (do 2 apply reachable_step; apply reachable_empty).
  assert (comment_table db !! 1 = Some (mkRow 1 "bob" "hi")) as H by reflexivity.
  split; [exact Hr|]. split; [exact H|].
  apply (reachable_comment_task_ids_positive db Hr 1 _ H).
Defined.

(** ** Listing after a create and after a delete *)

(** X19: after a task is created, the task listing is the listing from
    before with the new record added, up to order. *)
Theorem create_task_then_list db t :
  ∃ k l l',
    outcome (POST_tasks (mkTaskBody (Str t)) db) = Ok (201, JTask (mkTaskRead k t)) ∧
    outcome (GET_tasks db) = Ok (200, JTasks l) ∧
    outcome (GET_tasks (db_after (POST_tasks (mkTaskBody (Str t)) db))) =
      Ok (200, JTasks l') ∧
    l' ≡ₚ mkTaskRead k t :: l.
Proof.
  eexists _, _, _. rewrite !list_tasks_eval.
  split; [reflexivity|]. do 2 (split; [reflexivity|]).
  unfold_handlers. simpl.
  by rewrite map_to_list_insert by apply next_rowid_fresh.
Qed.

(** X20: after an existing task is deleted, the task listing is the
    listing from before without that task's record, up to order. *)
Theorem delete_task_then_list db k title :
  task_table db !! k = Some title →
  ∃ l l',
    outcome (GET_tasks db) = Ok (200, JTasks l) ∧
    outcome (GET_tasks (db_after (DELETE_task k db))) = Ok (200, JTasks l') ∧
    (mkTaskRead k title ∉ l') ∧
    l ≡ₚ mkTaskRead k title :: l'.
Proof.
  intros H. eexists _, _. rewrite !list_tasks_eval.
  rewrite (delete_task_found db k title H). unfold outcome, db_after; simpl.
  do 2 (split; [reflexivity|]). split.
  - intros [[k' t'] [Heq Hin]]%list_elem_of_fmap.
    apply elem_of_map_to_list in Hin. unfold read_task in Heq; simpl in Heq.
    injection Heq as <- <-. by rewrite lookup_delete_eq in Hin.
  - by rewrite <- (map_to_list_delete (task_table db) k title H).
Qed.

Lemma delete_task_then_list_witness :
  let db := mkDB {[1 := "A"%string]} ∅ in
  task_table db !! 1 = Some "A"%string ∧
  ∃ l', outcome (GET_tasks (db_after (DELETE_task 1 db))) = Ok (200, JTasks l') ∧
        (mkTaskRead 1 "A" ∉ l').
Proof.
  intros db.
  assert (task_table db !! 1 = Some "A"%string) as H by reflexivity.
  split; [exact H|].
  destruct (delete_task_then_list db 1 "A" H) as (l & l' & _ & E & Hn & _).
  exists l'. split; [exact E|exact Hn].
Defined.
